(** * vm.py: QEMU virtual machine management tool

    A shallow embedding of [vm.py] and the properties of its command
    assembly, distribution catalog and port probe.

    The script talks to the outside world through [print],
    [subprocess.call], [os.path.exists], [os.cpu_count] and one TCP socket.
    These are modelled by an explicit host environment, an event trace and
    an oracle for the external tools; the Python functions become programs
    of a small state-and-exception monad over them. *)

From Stdlib Require Import ZArith String Ascii List Lia DecimalString DecimalZ.
From stdpp Require Import gmap strings list fin_maps.
Import ListNotations.
Local Open Scope string_scope.
Local Open Scope Z_scope.

(** ** Python values and formatting *)

(** [str(n)] for a Python [int]: decimal digits, a leading ["-"] for
    negative numbers, no padding.  This is what [f"{n}"] and
    ["{}".format(n)] insert. *)
Definition str_int (n : Z) : string :=
  NilZero.string_of_int (Z.to_int n).

(** [f"{s}"] for a Python [str] inserts [s] itself; the f-strings of the
    script are written below as concatenations. *)

(** [sep.join(l)] *)
Definition join (sep : string) (l : list string) : string :=
  String.concat sep l.

(** The newline character of ["connect with \nssh -p"]. *)
Definition nl : string := String "010"%char EmptyString.

(** [int(n / 2)] for a Python [int] [n].

    [n / 2] is true division: the exact quotient rounded to the nearest
    binary64 float (53 significant bits, ties to even), [OverflowError]
    when the quotient is beyond the float range.  [int] then truncates
    towards zero.  With [a = |n|] of bit length [len]:
    - [len <= 53]: [a / 2] is a float, and truncation gives [a div 2];
    - otherwise [a] is rounded to a multiple of [2 ^ (len - 53)], whose
      half is an integer. *)
Definition round_half_even (a sh : Z) : Z :=
  let q := Z.shiftr a sh in
  let r := Z.land a (Z.ones sh) in
  let half := Z.shiftl 1 (sh - 1) in
  if (half <? r) || ((r =? half) && Z.odd q) then q + 1 else q.

Definition int_truediv2 (n : Z) : option Z :=
  let a := Z.abs n in
  let len := Z.log2 a + 1 in
  if len <=? 53 then Some (Z.sgn n * (a / 2))
  else
    let sh := len - 53 in
    let v := Z.shiftl (round_half_even a sh) (sh - 1) in
    if 2 ^ 1024 <=? v then None else Some (Z.sgn n * v).

(** ** The host and the effects of the script *)

(** What the script can observe of its host: the paths for which
    [os.path.exists] answers [True], the local TCP ports on which a
    listener is bound, and the answer of [os.cpu_count()] ([None] when the
    count cannot be determined). *)
Record Env : Type := mkEnv {
  files : gset string;
  listeners : gset Z;
  ncpu : option Z
}.

(** What the script does to its host, in order. *)
Inductive event : Type :=
| Print (line : string)      (* print(...): one line on standard output *)
| Call (cmd : string).       (* subprocess.call(cmd, shell=True) *)

Record State : Type := mkState {
  env : Env;
  trace : list event
}.

Inductive exn : Type :=
| TypeError                  (* None / 2 *)
| KeyError (key : string)    (* d[key] on a missing key *)
| OverflowError              (* port outside 0-65535, float overflow *)
| ValueError                 (* NUL character in a command line *)
| UnicodeEncodeError.        (* print of a line that stdout cannot encode *)

(** A call returns, raises, or is still running when the fuel of a
    [while True] loop is used up. *)
Inductive outcome (A : Type) : Type :=
| Ok (a : A)
| Raise (e : exn)
| Diverge.
Arguments Ok {A} a.
Arguments Raise {A} e.
Arguments Diverge {A}.

Definition M (A : Type) : Type := State -> outcome A * State.

Definition ret {A} (a : A) : M A := fun s => (Ok a, s).

Definition raise {A} (e : exn) : M A := fun s => (Raise e, s).

Definition diverge {A} : M A := fun s => (Diverge, s).

Definition bind {A B} (c : M A) (k : A -> M B) : M B :=
  fun s =>
    match c s with
    | (Ok a, s') => k a s'
    | (Raise e, s') => (Raise e, s')
    | (Diverge, s') => (Diverge, s')
    end.

Declare Scope py_scope.
Delimit Scope py_scope with py.
Notation "x <- c1 ;; c2" := (bind c1 (fun x => c2))
  (at level 100, c1 at next level, right associativity) : py_scope.
Notation "c1 ;; c2" := (bind c1 (fun _ => c2))
  (at level 100, right associativity) : py_scope.
Local Open Scope py_scope.

Definition emit (e : event) : M unit :=
  fun s => (Ok tt, mkState (env s) (trace s ++ [e])).

(** [print(a, b, ...)]: the arguments' [str] joined by single spaces.
    This is [print] when it returns; [print_checked] below has the case
    where it raises. *)
Definition print (args : list string) : M unit :=
  emit (Print (join " " args)).

(** [os.path.exists(path)] *)
Definition os_path_exists (path : string) : M bool :=
  fun s => (Ok (bool_decide (path ∈ files (env s))), s).

(** [os.cpu_count()] *)
Definition os_cpu_count : M (option Z) :=
  fun s => (Ok (ncpu (env s)), s).

(** [int(c / 2)] where [c] is the answer of [os.cpu_count()]. *)
Definition int_half (c : option Z) : M Z :=
  match c with
  | None => raise TypeError
  | Some n =>
      match int_truediv2 n with
      | Some h => ret h
      | None => raise OverflowError
      end
  end.

(** [d[key]] and [key in d] on a dict, [x in l] on a list. *)
Definition getitem (d : gmap string string) (key : string) : M string :=
  match d !! key with
  | Some v => ret v
  | None => raise (KeyError key)
  end.

Definition in_dict (key : string) (d : gmap string string) : bool :=
  bool_decide (is_Some (d !! key)).

Definition in_list (x : string) (l : list string) : bool :=
  bool_decide (x ∈ l).

Section Script.

(** The external tools.  [subprocess.call(cmd, shell=True)] runs [cmd] to
    completion; the tool may change the files and listeners of the host
    and yields an exit code.  Nothing is assumed about it.  This is the
    call once the shell has started; [subprocess_call_checked] below has
    the case where the call raises instead. *)
Variable system : string -> Env -> Z * Env.

Definition subprocess_call (cmd : string) : M Z :=
  fun s =>
    let (code, e') := system cmd (env s) in
    (Ok code, mkState e' (trace s ++ [Call cmd])).

(** ** The distribution catalog (lines 17-28) *)

Definition debian : string := "debian".
Definition ubuntu : string := "ubuntu".

Definition distbibutions : list string := [debian; ubuntu].

Definition iso_paths : gmap string string :=
  <[ubuntu := "ubuntu-20.04.3-live-server-amd64.iso"]>
    (<[debian := "debian-10.13.0-amd64-xfce-CD-1.iso"]> ∅).

Definition iso_urls : gmap string string :=
  <[ubuntu := "https://releases.ubuntu.com/focal/ubuntu-20.04.6-desktop-amd64.iso"]>
    (<[debian := "https://cdimage.debian.org/cdimage/archive/10.4.0-live/amd64/iso-hybrid/debian-live-10.4.0-amd64-standard.iso"]> ∅).

(** ** The install image (lines 31-43) *)

Definition download_iso (dist : string) : M unit :=
  if in_dict dist iso_paths then
    url <- getitem iso_urls dist ;;
    path <- getitem iso_paths dist ;;
    let cmd := "wget " +:+ url +:+ " -O " +:+ path in
    _ <- subprocess_call cmd ;;
    ret tt
  else
    print ["Distribution not supported"].

Definition iso_exists (dist : string) : M bool :=
  if in_dict dist iso_paths then
    path <- getitem iso_paths dist ;;
    os_path_exists path
  else
    ret false.

(** ** The port probe (lines 46-58) *)

(** The one socket of [get_available_port].  [sock.close()] releases its
    descriptor; the object stays and can still be called. *)
Inductive socket : Type :=
| SockFresh
| SockConnected
| SockClosed.

Definition ECONNREFUSED : Z := 111.
Definition EISCONN : Z := 106.
Definition EBADF : Z := 9.

(** [sock.connect_ex(('127.0.0.1', port))]: the [errno] of the C-level
    [connect], 0 on success, together with the socket afterwards.  The
    address is checked first ([OverflowError] outside 0-65535); a closed
    socket has no descriptor and [connect] fails with [EBADF] whatever
    listens on [port]. *)
Definition connect_ex (sock : socket) (port : Z) : M (Z * socket) :=
  fun s =>
    if (0 <=? port) && (port <=? 65535) then
      match sock with
      | SockFresh =>
          if bool_decide (port ∈ listeners (env s))
          then (Ok (0, SockConnected), s)
          else (Ok (ECONNREFUSED, SockFresh), s)
      | SockConnected => (Ok (EISCONN, SockConnected), s)
      | SockClosed => (Ok (EBADF, SockClosed), s)
      end
    else (Raise OverflowError, s).

(** [sock.close()] *)
Definition sock_close (sock : socket) : socket := SockClosed.

(** The [while True] loop, with the loop variables [port] and [sock]. *)
Fixpoint probe_loop (fuel : nat) (sock : socket) (port : Z) : M Z :=
  match fuel with
  | O => diverge
  | S fuel' =>
      r <- connect_ex sock port ;;
      let (result, sock) := r in
      let sock := sock_close sock in
      if result =? 0 then
        print ["Port " +:+ str_int port +:+ " is already in use"] ;;
        probe_loop fuel' sock (port + 1)
      else
        print ["Port " +:+ str_int port +:+ " is available"] ;;
        ret port
  end.

Definition get_available_port (fuel : nat) : M Z :=
  let port := 3132 in
  let sock := SockFresh in
  probe_loop fuel sock port.

(** ** Image creation (lines 61-75) *)

(** The local [img_path] of [create_vm_from_iso]. *)
Definition img_path_of (name : string) (size : Z) : string :=
  name +:+ ".size" +:+ str_int size +:+ "G.qcow2".

Definition create_vm_from_iso (name : string) (size : Z) (iso_path : string)
  : M unit :=
  let img_path := img_path_of name size in
  let cmd1 := "qemu-img create -f qcow2 " +:+ img_path +:+ " "
                +:+ str_int size +:+ "G" in
  let cmd2 := "qemu-system-x86_64 -enable-kvm -hda " +:+ img_path
                +:+ " -cdrom " +:+ iso_path
                +:+ " -m 4000 -boot d -net user -net nic,model=ne2k_pci -enable-kvm" in
  _ <- subprocess_call cmd1 ;;
  _ <- subprocess_call cmd2 ;;
  ret tt.

Definition create_vm (name : string) (size : Z) (dist : string) : M unit :=
  if in_list dist distbibutions then
    present <- iso_exists dist ;;
    (if negb present then download_iso dist else ret tt) ;;
    iso_path <- getitem iso_paths dist ;;
    create_vm_from_iso name size iso_path
  else
    print ["Distribution not supported"].

(** ** The launcher (lines 78-122) *)

(** [cmd.append(x)] and [cmd.insert(0, x)] *)
Definition append (cmd : list string) (x : string) : list string := cmd ++ [x].
Definition insert0 (x : string) (cmd : list string) : list string := x :: cmd.

(** The list [cmd] of [start_vm] when it reaches line 115, for the
    resolved [ncpus]. *)
Definition start_vm_cmd (img_path : string) (ssh_port mem_size : Z)
    (daemonize : bool) (disk qemu_extra_args : option string) (ncpus : Z)
    (sudo graphical : bool) : list string :=
  let port := ssh_port + 1 in
  let cmd := [] in
  let cmd := append cmd "qemu-system-x86_64" in
  let cmd := if negb graphical
             then append cmd ("-vnc 127.0.0.1:" +:+ str_int port) else cmd in
  let cmd := append cmd ("-smp " +:+ str_int ncpus) in
  let cmd := append cmd "-cpu host" in
  let cmd := append cmd "-device virtio-net,netdev=user.0" in
  let cmd := append cmd ("-m " +:+ str_int mem_size) in
  let cmd := append cmd ("-drive file=" +:+ img_path
               +:+ ",if=virtio,index=0,cache=writeback,discard=ignore,format=qcow2") in
  let cmd := append cmd "-machine type=pc,accel=kvm" in
  let cmd := append cmd ("-netdev user,id=user.0,hostfwd=tcp::"
               +:+ str_int ssh_port +:+ "-:22") in
  let cmd := if daemonize then append cmd "--daemonize" else cmd in
  let cmd := match disk with
             | Some disk =>
                 append cmd ("-drive file=" +:+ disk
                   +:+ ",if=virtio,index=1,cache=writeback,discard=ignore,format=qcow2")
             | None => cmd
             end in
  let cmd := match qemu_extra_args with
             | Some extra => append cmd extra
             | None => cmd
             end in
  let cmd := if sudo then insert0 "sudo" cmd else cmd in
  cmd.

(** [ncpus] after lines 85-86. *)
Definition resolve_ncpus (ncpus : option Z) : M Z :=
  match ncpus with
  | None => c <- os_cpu_count ;; int_half c
  | Some n => ret n
  end.

Definition start_vm (img_path : string) (ssh_port mem_size : Z)
    (daemonize : bool) (disk : option string) (verbose : bool)
    (qemu_extra_args : option string) (ncpus : option Z)
    (sudo graphical : bool) : M unit :=
  ncpus <- resolve_ncpus ncpus ;;
  let cmd := start_vm_cmd img_path ssh_port mem_size daemonize disk
               qemu_extra_args ncpus sudo graphical in
  (if verbose then print [join " " cmd] else ret tt) ;;
  code <- subprocess_call (join " " cmd) ;;
  if code =? 0 then
    print ["vm started wih ssh port"; str_int ssh_port; "on localhost";
           "connect with " +:+ nl +:+ "ssh -p"; str_int ssh_port;
           "{USER}@localhost"]
  else
    print ["vm failed to start"].

End Script.

(** ** Reading aids, sample hosts and tools *)

(** [int(s)]: the value of a decimal numeral, to state what [str_int]
    writes. *)
Definition parse_int (s : string) : option Z :=
  option_map Z.of_int (NilZero.int_of_string s).

(** A host with the Debian image on disk and 8 logical CPUs. *)
Definition host_with_debian_iso : State :=
  mkState (mkEnv {["debian-10.13.0-amd64-xfce-CD-1.iso"]} ∅ (Some 8)) [].

(** A host with listeners on the given ports. *)
Definition host_listening (ports : gset Z) : State :=
  mkState (mkEnv ∅ ports (Some 8)) [].

(** A tool that always succeeds and leaves the host alone. *)
Definition quiet_tool : string -> Env -> Z * Env := fun _ e => (0, e).

(** A hypervisor that fails. *)
Definition failing_tool : string -> Env -> Z * Env := fun _ e => (1, e).

(** A downloader that leaves the file [path] on disk. *)
Definition tool_creating (path : string) : string -> Env -> Z * Env :=
  fun _ e => (0, mkEnv ({[path]} ∪ files e) (listeners e) (ncpu e)).

(** A host on which [os.cpu_count()] answers [None]. *)
Definition host_without_cpu_count : State :=
  mkState (mkEnv ∅ ∅ None) [].

(** [c in s] for a character [c]. *)
Fixpoint has_char (c : ascii) (s : string) : bool :=
  match s with
  | EmptyString => false
  | String a s' => Ascii.eqb c a || has_char c s'
  end.

(** [p in s] for strings: [p] occurs somewhere in [s]. *)
Fixpoint occurs (p s : string) : bool :=
  String.prefix p s
  || match s with
     | EmptyString => false
     | String _ s' => occurs p s'
     end.

(** Reading a string from left to right while looking for ["-vnc"]: how
    much of it has just been read.  ["-vnc"] does not overlap itself, so
    a mismatch falls back to nothing read, or to ["-"] on a dash. *)
Inductive vnc_state : Type :=
| V0        (* nothing *)
| V1        (* "-" *)
| V2        (* "-v" *)
| V3        (* "-vn" *)
| VFound.   (* "-vnc" has been read *)

Definition vnc_step (q : vnc_state) (c : ascii) : vnc_state :=
  match q with
  | VFound => VFound
  | _ =>
      if Ascii.eqb c "-" then V1
      else match q with
           | V1 => if Ascii.eqb c "v" then V2 else V0
           | V2 => if Ascii.eqb c "n" then V3 else V0
           | V3 => if Ascii.eqb c "c" then VFound else V0
           | _ => V0
           end
  end.

Fixpoint vnc_scan (q : vnc_state) (s : string) : vnc_state :=
  match s with
  | EmptyString => q
  | String c s' => vnc_scan (vnc_step q c) s'
  end.

Definition is_found (q : vnc_state) : bool :=
  match q with VFound => true | _ => false end.

(** What is left to read of ["-vnc"] in each state. *)
Definition vnc_pending (q : vnc_state) : string :=
  match q with
  | V0 => "-vnc"
  | V1 => "vnc"
  | V2 => "nc"
  | V3 => "c"
  | VFound => ""
  end.

(** ** Library calls that fail

    The definitions above follow the script while [print] and
    [subprocess.call] return.  Both can raise, and the script catches
    nothing:
    - [subprocess.call(cmd, shell=True)] raises [ValueError] (embedded
      null byte) when [cmd] has a NUL character, before any tool starts;
    - [print(line)] raises [UnicodeEncodeError] when standard output
      cannot encode [line]; which lines it can encode depends on the
      host.
    [start_vm_checked] is [start_vm] over these. *)

Definition NUL : ascii := "000"%char.

Section Library.

Variable system : string -> Env -> Z * Env.

(** The lines that standard output can encode. *)
Variable encodable : string -> bool.

Definition print_checked (args : list string) : M unit :=
  if encodable (join " " args) then print args
  else raise UnicodeEncodeError.

Definition subprocess_call_checked (cmd : string) : M Z :=
  if has_char NUL cmd then raise ValueError
  else subprocess_call system cmd.

Definition start_vm_checked (img_path : string) (ssh_port mem_size : Z)
    (daemonize : bool) (disk : option string) (verbose : bool)
    (qemu_extra_args : option string) (ncpus : option Z)
    (sudo graphical : bool) : M unit :=
  ncpus <- resolve_ncpus ncpus ;;
  let cmd := start_vm_cmd img_path ssh_port mem_size daemonize disk
               qemu_extra_args ncpus sudo graphical in
  (if verbose then print_checked [join " " cmd] else ret tt) ;;
  code <- subprocess_call_checked (join " " cmd) ;;
  if code =? 0 then
    print_checked
      ["vm started wih ssh port"; str_int ssh_port; "on localhost";
       "connect with " +:+ nl +:+ "ssh -p"; str_int ssh_port;
       "{USER}@localhost"]
  else
    print_checked ["vm failed to start"].

End Library.



Definition is_call (ev : event) : bool :=
  match ev with Call _ => true | Print _ => false end.

Definition is_ok {A} (o : outcome A) : bool :=
  match o with Ok _ => true | _ => false end.


(** * Properties *)

(** ** Formatting *)

Example str_int_10 : str_int 10 = "10".
Proof. reflexivity. Qed.

Example str_int_0 : str_int 0 = "0".
Proof. reflexivity. Qed.

Example str_int_neg : str_int (-42) = "-42".
Proof. reflexivity. Qed.

Example join_3 : join " " ["a"; "b c"; "d"] = "a b c d".
Proof. reflexivity. Qed.

Example int_truediv2_8 : int_truediv2 8 = Some 4.
Proof. reflexivity. Qed.

Example int_truediv2_7 : int_truediv2 7 = Some 3.
Proof. reflexivity. Qed.

Example int_truediv2_neg7 : int_truediv2 (-7) = Some (-3).
Proof. reflexivity. Qed.

Example int_truediv2_rounds : int_truediv2 (2 ^ 53 + 3) = Some (2 ^ 52 + 2).
Proof. reflexivity. Qed.

Lemma append_cons (a : ascii) (s1 s2 : string) :
  String a s1 +:+ s2 = String a (s1 +:+ s2).
Proof. reflexivity. Qed.

Lemma append_nil_r (s : string) : s +:+ "" = s.
Proof.
  induction s as [|a s IH]; [reflexivity|].
  rewrite append_cons. by f_equal.
Qed.

Lemma append_assoc (s1 s2 s3 : string) :
  (s1 +:+ s2) +:+ s3 = s1 +:+ (s2 +:+ s3).
Proof.
  induction s1 as [|a s1 IH]; [reflexivity|].
  rewrite !append_cons. by f_equal.
Qed.

Lemma has_char_here (c : ascii) (s : string) : has_char c (String c s) = true.
Proof. cbn. by rewrite Ascii.eqb_refl. Qed.

Lemma has_char_append (c : ascii) (s1 s2 : string) :
  has_char c (s1 +:+ s2) = has_char c s1 || has_char c s2.
Proof.
  induction s1 as [|a s1 IH]; [reflexivity|].
  rewrite append_cons. cbn [has_char]. by rewrite IH, orb_assoc.
Qed.

(** A string is cut in one way only at the last occurrence of a
    character. *)
Lemma cut_at_last (c : ascii) (a1 a2 d1 d2 : string) :
  has_char c d1 = false ->
  has_char c d2 = false ->
  a1 +:+ String c d1 = a2 +:+ String c d2 ->
  a1 = a2 /\ d1 = d2.
Proof.
  intros H1 H2. revert a2.
  induction a1 as [|x a1 IH]; intros [|y a2]; rewrite ?append_cons;
    change ("" +:+ String c d1) with (String c d1);
    change ("" +:+ String c d2) with (String c d2); intros Heq.
  - injection Heq as Heq. by subst.
  - injection Heq as Hc Hd. subst.
    rewrite has_char_append, has_char_here, orb_true_r in H1. discriminate.
  - injection Heq as Hc Hd. subst.
    rewrite has_char_append, has_char_here, orb_true_r in H2. discriminate.
  - injection Heq as Hxy Heq. subst.
    destruct (IH a2 Heq) as [-> ->]. by split.
Qed.

Lemma append_inv_tail (t a1 a2 : string) : a1 +:+ t = a2 +:+ t -> a1 = a2.
Proof.
  revert a1 a2. induction t as [|c t IH]; intros a1 a2 Heq.
  - by rewrite !append_nil_r in Heq.
  - change (String c t) with (String c "" +:+ t) in Heq.
    rewrite <- !append_assoc in Heq. apply IH in Heq.
    by apply (cut_at_last c a1 a2 "" "") in Heq as [? _].
Qed.

(** [str(n)] is made of digits and a sign. *)
Lemma has_char_string_of_uint (c : ascii) (d : Decimal.uint) :
  has_char c "0123456789" = false ->
  has_char c (NilEmpty.string_of_uint d) = false.
Proof.
  intros H. cbn in H.
  repeat (apply orb_false_iff in H as [? H]).
  induction d; cbn; rewrite ?orb_false_iff; auto.
Qed.

Lemma has_char_str_int (c : ascii) (n : Z) :
  has_char c "-0123456789" = false ->
  has_char c (str_int n) = false.
Proof.
  intros H. cbn [has_char] in H. apply orb_false_iff in H as [Hsign H].
  pose proof (has_char_string_of_uint c) as Hd.
  assert (Hz : forall d, has_char c (NilZero.string_of_uint d) = false).
  { intros d. destruct d; try (by apply Hd).
    cbn. cbn in H. apply orb_false_iff in H as [-> _]. reflexivity. }
  unfold str_int. destruct n as [|p|p]; cbn [Z.to_int NilZero.string_of_int].
  - apply Hz.
  - apply Hz.
  - cbn [has_char]. rewrite Hsign. apply Hz.
Qed.

(** ** The catalog *)

Lemma lookup_two (d k1 k2 v1 v2 : string) :
  (<[k2 := v2]> (<[k1 := v1]> (∅ : gmap string string))) !! d =
    if decide (k2 = d) then Some v2
    else if decide (k1 = d) then Some v1 else None.
Proof.
  rewrite lookup_insert. case_decide; [done|].
  rewrite lookup_insert. case_decide; [done|].
  apply lookup_empty.
Qed.

Lemma iso_paths_lookup (d : string) :
  iso_paths !! d =
    if decide (ubuntu = d) then Some "ubuntu-20.04.3-live-server-amd64.iso"
    else if decide (debian = d) then Some "debian-10.13.0-amd64-xfce-CD-1.iso"
    else None.
Proof. apply lookup_two. Qed.

Lemma in_dict_two (d k1 k2 v1 v2 : string) :
  in_dict d (<[k2 := v2]> (<[k1 := v1]> ∅)) = true <-> d = k1 \/ d = k2.
Proof.
  unfold in_dict. rewrite bool_decide_eq_true, lookup_two.
  destruct (decide (k2 = d)) as [<-|N2]; [split; eauto|].
  destruct (decide (k1 = d)) as [<-|N1]; [split; eauto|].
  split; [intros [? ?]; discriminate | intros [->| ->]; congruence].
Qed.

Lemma in_dict_iso_paths (d : string) :
  in_dict d iso_paths = true <-> d = debian \/ d = ubuntu.
Proof. apply in_dict_two. Qed.

Lemma in_dict_iso_urls (d : string) :
  in_dict d iso_urls = true <-> d = debian \/ d = ubuntu.
Proof. apply in_dict_two. Qed.

Lemma in_list_distbibutions (d : string) :
  in_list d distbibutions = true <-> d = debian \/ d = ubuntu.
Proof.
  unfold in_list, distbibutions. rewrite bool_decide_eq_true.
  rewrite !elem_of_cons, elem_of_nil. tauto.
Qed.

Lemma supported_cases (d : string) :
  d ∈ distbibutions <-> d = debian \/ d = ubuntu.
Proof.
  unfold distbibutions. rewrite !elem_of_cons, elem_of_nil. tauto.
Qed.

Lemma not_true_false (b : bool) (P : Prop) : (b = true <-> P) -> ~ P -> b = false.
Proof. destruct b; intuition. Qed.

(** C10: a string is in the list [distbibutions] tested by [create_vm]
    exactly when it is a key of both [iso_paths] (tested by [download_iso]
    and [iso_exists]) and [iso_urls]; the three tests accept exactly
    ["debian"] and ["ubuntu"]. *)
Theorem supported_distributions_agree (d : string) :
  (in_list d distbibutions = true <->
     in_dict d iso_paths = true /\ in_dict d iso_urls = true)
  /\ (in_list d distbibutions = true <-> d = "debian" \/ d = "ubuntu")
  /\ (in_dict d iso_paths = true <-> d = "debian" \/ d = "ubuntu")
  /\ (in_dict d iso_urls = true <-> d = "debian" \/ d = "ubuntu").
Proof.
  pose proof (in_list_distbibutions d) as Hl.
  pose proof (in_dict_iso_paths d) as Hp.
  pose proof (in_dict_iso_urls d) as Hu.
  unfold debian, ubuntu in *. tauto.
Qed.

(** ** Image provisioning *)

(** C8: for a supported distribution, [iso_exists] answers [True] exactly
    when the file name that [iso_paths] gives for it exists on disk; it
    changes nothing. *)
Theorem iso_exists_iff_file (d : string) (s : State) :
  d ∈ distbibutions ->
  exists (path : string) (b : bool),
    iso_paths !! d = Some path
    /\ iso_exists d s = (Ok b, s)
    /\ (b = true <-> path ∈ files (env s)).
Proof.
  intros Hd. apply supported_cases in Hd.
  assert (Hin : in_dict d iso_paths = true) by (by apply in_dict_iso_paths).
  unfold iso_exists. rewrite Hin.
  unfold in_dict in Hin. apply bool_decide_eq_true in Hin.
  destruct Hin as [path Hpath].
  exists path, (bool_decide (path ∈ files (env s))).
  split; [exact Hpath|]. split.
  - unfold getitem. rewrite Hpath. reflexivity.
  - apply bool_decide_eq_true.
Qed.

Lemma iso_exists_iff_file_witness :
  exists (path : string) (b : bool),
    iso_paths !! "debian" = Some path
    /\ iso_exists "debian" host_with_debian_iso = (Ok b, host_with_debian_iso)
    /\ (b = true <-> path ∈ files (env host_with_debian_iso)).
Proof.
  apply (iso_exists_iff_file "debian" host_with_debian_iso).
  apply list_elem_of_here.
Defined.

Example iso_exists_present :
  iso_exists "debian" host_with_debian_iso = (Ok true, host_with_debian_iso).
Proof. vm_compute. reflexivity. Qed.

Example iso_exists_absent :
  iso_exists "ubuntu" host_with_debian_iso = (Ok false, host_with_debian_iso).
Proof. vm_compute. reflexivity. Qed.

Example iso_exists_unsupported :
  iso_exists "fedora" host_with_debian_iso = (Ok false, host_with_debian_iso).
Proof. vm_compute. reflexivity. Qed.

(** C2: for a distribution outside the catalog, [create_vm] and
    [download_iso] print ["Distribution not supported"] and return; no
    subprocess is called and the host is left as it was. *)
Theorem unsupported_distribution
    (system : string -> Env -> Z * Env)
    (name : string) (size : Z) (d : string) (s : State) :
  d ∉ distbibutions ->
  let s' := mkState (env s) (trace s ++ [Print "Distribution not supported"]) in
  create_vm system name size d s = (Ok tt, s')
  /\ download_iso system d s = (Ok tt, s').
Proof.
  intros Hd s'. rewrite supported_cases in Hd.
  split.
  - unfold create_vm.
    rewrite (not_true_false _ _ (in_list_distbibutions d) Hd). reflexivity.
  - unfold download_iso.
    rewrite (not_true_false _ _ (in_dict_iso_paths d) Hd). reflexivity.
Qed.

Lemma unsupported_distribution_witness :
  let s' := mkState (env host_with_debian_iso)
              [Print "Distribution not supported"] in
  create_vm quiet_tool "test" 10 "fedora" host_with_debian_iso = (Ok tt, s')
  /\ download_iso quiet_tool "fedora" host_with_debian_iso = (Ok tt, s').
Proof.
  apply (unsupported_distribution quiet_tool "test" 10 "fedora"
           host_with_debian_iso).
  unfold distbibutions, debian, ubuntu.
  rewrite !elem_of_cons, elem_of_nil. intros [H|[H|[]]]; discriminate H.
Defined.

Lemma parse_str_int (n : Z) : parse_int (str_int n) = Some n.
Proof.
  unfold parse_int, str_int.
  rewrite NilZero.isi.
  - simpl. f_equal. apply DecimalZ.of_to.
  - destruct n as [|p|p]; simpl; try discriminate.
    intros [= H]. exact (DecimalPos.Unsigned.to_uint_nonnil p H).
  - destruct n as [|p|p]; simpl; try discriminate.
    intros [= H]. exact (DecimalPos.Unsigned.to_uint_nonnil p H).
Qed.

Lemma str_int_inj (n m : Z) : str_int n = str_int m -> n = m.
Proof.
  intros H. apply (f_equal parse_int) in H.
  rewrite !parse_str_int in H. congruence.
Qed.

(** C5: the image file name of [create_vm_from_iso] is the name, then
    [".size"], the size in decimal, and ["G.qcow2"]; the digits read back
    as the size.  This holds for every integer size, the positive ones
    among them.  For ["test"] and 10 it is ["test.size10G.qcow2"]. *)
Theorem img_path_format (name : string) (size : Z) :
  img_path_of name size = name +:+ ".size" +:+ str_int size +:+ "G.qcow2"
  /\ parse_int (str_int size) = Some size
  /\ img_path_of "test" 10 = "test.size10G.qcow2".
Proof.
  split; [reflexivity|]. split; [apply parse_str_int|reflexivity].
Qed.

(** C6: [create_vm_from_iso] calls the disk-image tool and then the
    hypervisor, each to completion and whatever the first returns: first
    [qemu-img create] of a qcow2 file of [size]G at the image path, then
    [qemu-system-x86_64] with that file as disk, [iso_path] as CD-ROM,
    4000 MB, KVM, user-mode networking with an [ne2k_pci] NIC, booting
    from the CD-ROM ([-boot d]). *)
Theorem create_vm_from_iso_commands
    (system : string -> Env -> Z * Env)
    (name : string) (size : Z) (iso_path : string) (s : State) :
  let img := name +:+ ".size" +:+ str_int size +:+ "G.qcow2" in
  let cmd1 := "qemu-img create -f qcow2 " +:+ img +:+ " "
                +:+ str_int size +:+ "G" in
  let cmd2 := "qemu-system-x86_64 -enable-kvm -hda " +:+ img
                +:+ " -cdrom " +:+ iso_path
                +:+ " -m 4000 -boot d -net user -net nic,model=ne2k_pci -enable-kvm" in
  let e1 := snd (system cmd1 (env s)) in
  let e2 := snd (system cmd2 e1) in
  create_vm_from_iso system name size iso_path s
  = (Ok tt, mkState e2 (trace s ++ [Call cmd1; Call cmd2])).
Proof.
  intros img cmd1 cmd2 e1 e2.
  unfold create_vm_from_iso, bind, subprocess_call, ret.
  fold (img_path_of name size). change (img_path_of name size) with img.
  fold cmd1. fold cmd2. subst e2 e1.
  destruct (system cmd1 (env s)) as [c1 e1]. simpl.
  destruct (system cmd2 e1) as [c2 e2]. simpl.
  rewrite <- app_assoc. reflexivity.
Qed.

Example create_vm_from_iso_test :
  create_vm_from_iso quiet_tool "test" 10 "debian.iso" host_with_debian_iso
  = (Ok tt,
     mkState (env host_with_debian_iso)
       [Call "qemu-img create -f qcow2 test.size10G.qcow2 10G";
        Call "qemu-system-x86_64 -enable-kvm -hda test.size10G.qcow2 -cdrom debian.iso -m 4000 -boot d -net user -net nic,model=ne2k_pci -enable-kvm"]).
Proof. reflexivity. Qed.

Example create_vm_debian_present :
  create_vm quiet_tool "test" 10 "debian" host_with_debian_iso
  = (Ok tt,
     mkState (env host_with_debian_iso)
       [Call "qemu-img create -f qcow2 test.size10G.qcow2 10G";
        Call "qemu-system-x86_64 -enable-kvm -hda test.size10G.qcow2 -cdrom debian-10.13.0-amd64-xfce-CD-1.iso -m 4000 -boot d -net user -net nic,model=ne2k_pci -enable-kvm"]).
Proof. vm_compute. reflexivity. Qed.

Example create_vm_ubuntu_absent :
  create_vm quiet_tool "test" 10 "ubuntu" host_with_debian_iso
  = (Ok tt,
     mkState (env host_with_debian_iso)
       [Call "wget https://releases.ubuntu.com/focal/ubuntu-20.04.6-desktop-amd64.iso -O ubuntu-20.04.3-live-server-amd64.iso";
        Call "qemu-img create -f qcow2 test.size10G.qcow2 10G";
        Call "qemu-system-x86_64 -enable-kvm -hda test.size10G.qcow2 -cdrom ubuntu-20.04.3-live-server-amd64.iso -m 4000 -boot d -net user -net nic,model=ne2k_pci -enable-kvm"]).
Proof. vm_compute. reflexivity. Qed.

(** ** The launcher *)

(** C7: the command list of [start_vm], in order: ["sudo"] first when
    [sudo] is set; the hypervisor and its fixed arguments; then
    ["--daemonize"] when [daemonize] is set; then, when [disk] is set, a
    second virtio drive with index 1 and the cache, discard and format
    options of the first; then, when [qemu_extra_args] is set, that string
    as it is. *)
Theorem start_vm_cmd_order (img_path : string) (ssh_port mem_size : Z)
    (daemonize : bool) (disk qemu_extra_args : option string) (ncpus : Z)
    (sudo graphical : bool) :
  let drive (path index : string) : string :=
    "-drive file=" +:+ path +:+ ",if=virtio,index=" +:+ index
      +:+ ",cache=writeback,discard=ignore,format=qcow2" in
  start_vm_cmd img_path ssh_port mem_size daemonize disk qemu_extra_args
    ncpus sudo graphical
  = ((if sudo then ["sudo"] else [])
     ++ ["qemu-system-x86_64"]
     ++ (if graphical then []
         else ["-vnc 127.0.0.1:" +:+ str_int (ssh_port + 1)])
     ++ ["-smp " +:+ str_int ncpus;
         "-cpu host";
         "-device virtio-net,netdev=user.0";
         "-m " +:+ str_int mem_size;
         drive img_path "0";
         "-machine type=pc,accel=kvm";
         "-netdev user,id=user.0,hostfwd=tcp::" +:+ str_int ssh_port +:+ "-:22"]
     ++ (if daemonize then ["--daemonize"] else [])
     ++ match disk with Some d => [drive d "1"] | None => [] end
     ++ match qemu_extra_args with Some extra => [extra] | None => [] end)%list.
Proof.
  unfold start_vm_cmd, append, insert0.
  destruct sudo, graphical, daemonize, disk, qemu_extra_args; reflexivity.
Qed.

Example start_vm_cmd_all_options :
  start_vm_cmd "vm.qcow2" 2222 4000 true (Some "data.qcow2")
    (Some "-snapshot -nographic") 4 true false
  = ["sudo"; "qemu-system-x86_64"; "-vnc 127.0.0.1:2223"; "-smp 4";
     "-cpu host"; "-device virtio-net,netdev=user.0"; "-m 4000";
     "-drive file=vm.qcow2,if=virtio,index=0,cache=writeback,discard=ignore,format=qcow2";
     "-machine type=pc,accel=kvm";
     "-netdev user,id=user.0,hostfwd=tcp::2222-:22";
     "--daemonize";
     "-drive file=data.qcow2,if=virtio,index=1,cache=writeback,discard=ignore,format=qcow2";
     "-snapshot -nographic"].
Proof. reflexivity. Qed.

(** *** Where ["-vnc"] can come from *)

Lemma vnc_scan_app (q : vnc_state) (a b : string) :
  vnc_scan q (a +:+ b) = vnc_scan (vnc_scan q a) b.
Proof.
  revert q. induction a as [|c a IH]; intros q; [reflexivity|].
  rewrite append_cons. cbn [vnc_scan]. apply IH.
Qed.

Lemma vnc_scan_found (s : string) : vnc_scan VFound s = VFound.
Proof. induction s as [|c s IH]; [reflexivity|exact IH]. Qed.

Lemma prefix_nil (s : string) : String.prefix "" s = true.
Proof. by destruct s. Qed.

Lemma prefix_occurs (p s : string) :
  String.prefix p s = true -> occurs p s = true.
Proof. intros H. destruct s; cbn [occurs]; by rewrite H. Qed.

(** The scan finds ["-vnc"] exactly when it was found before, or what
    is pending comes next, or ["-vnc"] occurs in what is read. *)
Lemma vnc_scan_occurs (s : string) (q : vnc_state) :
  is_found (vnc_scan q s)
  = is_found q || String.prefix (vnc_pending q) s || occurs "-vnc" s.
Proof.
  revert q. induction s as [|c s IH]; intros q.
  - destruct q; reflexivity.
  - cbn [vnc_scan]. rewrite IH.
    destruct (occurs "-vnc" s) eqn:Hocc.
    + destruct q; destruct c as [[] [] [] [] [] [] [] []]; cbn;
        rewrite ?prefix_nil, ?Hocc, ?orb_true_r; reflexivity.
    + assert (Hhead : String.prefix "-vnc" s = false).
      { destruct (String.prefix "-vnc" s) eqn:Hhead; [|reflexivity].
        apply prefix_occurs in Hhead. congruence. }
      destruct q; destruct c as [[] [] [] [] [] [] [] []]; cbn;
        rewrite ?prefix_nil, ?Hocc, ?Hhead, ?orb_false_r, ?orb_diag;
        reflexivity.
Qed.

Lemma occurs_vnc (s : string) :
  occurs "-vnc" s = is_found (vnc_scan V0 s).
Proof.
  rewrite vnc_scan_occurs. cbn [is_found vnc_pending orb].
  destruct s as [|c s]; [reflexivity|].
  cbn [occurs]. by destruct (String.prefix "-vnc" (String c s)).
Qed.

(** A string without ["v"] gets the scan no further than a dash. *)
Lemma vnc_scan_no_v (s : string) (q : vnc_state) :
  has_char "v" s = false ->
  q = V0 \/ q = V1 ->
  vnc_scan q s = V0 \/ vnc_scan q s = V1.
Proof.
  revert q. induction s as [|c s IH]; intros q Hs Hq; [exact Hq|].
  cbn [has_char] in Hs. apply orb_false_iff in Hs as [Hc Hs].
  cbn [vnc_scan]. apply IH; [exact Hs|].
  rewrite Ascii.eqb_sym in Hc.
  destruct Hq as [-> | ->]; cbn [vnc_step]; rewrite ?Hc;
    destruct (Ascii.eqb c "-"); auto.
Qed.

(** After a number, text that reads the same from nothing and from a
    dash. *)
Lemma vnc_after_number (n : Z) (lit : string) (r : vnc_state) :
  vnc_scan V0 lit = r ->
  vnc_scan V1 lit = r ->
  vnc_scan (vnc_scan V0 (str_int n)) lit = r.
Proof.
  intros H0 H1.
  destruct (vnc_scan_no_v (str_int n) V0) as [-> | ->]; auto.
  by apply has_char_str_int.
Qed.

(** After any text, text that takes the scan back to the same state. *)
Lemma vnc_scan_then (q : vnc_state) (lit : string) (r : vnc_state) :
  (forall q' : vnc_state, is_found q' = false -> vnc_scan q' lit = r) ->
  vnc_scan q lit = if is_found q then VFound else r.
Proof.
  intros Hlit. destruct (is_found q) eqn:Hq.
  - destruct q; try discriminate. apply vnc_scan_found.
  - by apply Hlit.
Qed.

Ltac is_vnc_value q :=
  lazymatch q with
  | V0 => idtac
  | V1 => idtac
  | V2 => idtac
  | V3 => idtac
  | VFound => idtac
  end.

Ltac vnc_walk :=
  repeat first
    [ rewrite vnc_scan_found
    | match goal with
      | |- context [vnc_scan (vnc_scan V0 (str_int ?n)) ?lit] =>
          let r := eval vm_compute in (vnc_scan V0 lit) in
          rewrite (vnc_after_number n lit r) by reflexivity
      | |- context [vnc_scan (vnc_scan V0 ?x) ?lit] =>
          is_var x;
          let r := eval vm_compute in (vnc_scan V0 lit) in
          rewrite (vnc_scan_then (vnc_scan V0 x) lit r)
            by (intros [] ?; (reflexivity || discriminate));
          destruct (is_found (vnc_scan V0 x))
      | |- context [vnc_scan ?q ?lit] =>
          is_vnc_value q;
          let r := eval vm_compute in (vnc_scan q lit) in
          is_vnc_value r;
          change (vnc_scan q lit) with r
      end ].

Lemma prefix_append (p b : string) : String.prefix p (p +:+ b) = true.
Proof.
  induction p as [|c p IH]; [apply prefix_nil|].
  rewrite append_cons. cbn [String.prefix].
  by destruct (ascii_dec c c).
Qed.

Lemma occurs_here (p b : string) : occurs p (p +:+ b) = true.
Proof. apply prefix_occurs, prefix_append. Qed.

Lemma occurs_skip (p a b : string) :
  occurs p b = true -> occurs p (a +:+ b) = true.
Proof.
  intros Hb. induction a as [|c a IH]; [exact Hb|].
  rewrite append_cons. cbn [occurs]. rewrite IH. apply orb_true_r.
Qed.

(** With [graphical] set, the command line has ["-vnc"] in it exactly
    when the image path, the disk path or the extra arguments have. *)
Lemma start_vm_graphical_vnc (img_path : string) (ssh_port mem_size : Z)
    (daemonize : bool) (disk qemu_extra_args : option string) (ncpus : Z)
    (sudo : bool) :
  occurs "-vnc"
    (join " " (start_vm_cmd img_path ssh_port mem_size daemonize disk
                 qemu_extra_args ncpus sudo true))
  = occurs "-vnc" img_path
    || match disk with Some d => occurs "-vnc" d | None => false end
    || match qemu_extra_args with
       | Some extra => occurs "-vnc" extra
       | None => false
       end.
Proof.
  rewrite !occurs_vnc.
  unfold start_vm_cmd, append, insert0, join.
  destruct sudo, daemonize, disk as [d|], qemu_extra_args as [extra|];
    cbn [negb app String.concat]; rewrite ?occurs_vnc, !vnc_scan_app;
    vnc_walk; cbn [is_found orb];
    rewrite ?orb_false_r, ?orb_true_r; reflexivity.
Qed.

(** C3, as the code has it: the VNC port is [ssh_port + 1].  Without
    [graphical] the command list has the flag ["-vnc 127.0.0.1:"] with
    that port right after the hypervisor, and so the command line has it;
    for 2222 it is ["-vnc 127.0.0.1:2223"].  With [graphical] the script
    adds no VNC flag
    of its own: ["-vnc"] is in the command line exactly when it is in the
    image path, the disk path or the extra arguments that the caller
    gives. *)
Theorem start_vm_vnc (img_path : string) (ssh_port mem_size : Z)
    (daemonize : bool) (disk qemu_extra_args : option string) (ncpus : Z)
    (sudo : bool) :
  nth_error
    (start_vm_cmd img_path ssh_port mem_size daemonize disk qemu_extra_args
       ncpus sudo false)
    (if sudo then 2 else 1)
  = Some ("-vnc 127.0.0.1:" +:+ str_int (ssh_port + 1))
  /\ occurs ("-vnc 127.0.0.1:" +:+ str_int (ssh_port + 1))
       (join " " (start_vm_cmd img_path ssh_port mem_size daemonize disk
                    qemu_extra_args ncpus sudo false))
     = true
  /\ occurs "-vnc"
       (join " " (start_vm_cmd img_path ssh_port mem_size daemonize disk
                    qemu_extra_args ncpus sudo true))
     = occurs "-vnc" img_path
       || match disk with Some d => occurs "-vnc" d | None => false end
       || match qemu_extra_args with
          | Some extra => occurs "-vnc" extra
          | None => false
          end
  /\ nth_error
       (start_vm_cmd img_path 2222 mem_size daemonize disk qemu_extra_args
          ncpus false false) 1
     = Some "-vnc 127.0.0.1:2223".
Proof.
  split; [|split; [|split]].
  - unfold start_vm_cmd, append, insert0.
    destruct sudo, daemonize, disk, qemu_extra_args; reflexivity.
  - unfold start_vm_cmd, append, insert0, join.
    destruct sudo, daemonize, disk, qemu_extra_args;
      cbn [negb app String.concat];
      repeat (apply occurs_skip; try apply occurs_here).
  - apply start_vm_graphical_vnc.
  - unfold start_vm_cmd, append, insert0.
    destruct daemonize, disk, qemu_extra_args; reflexivity.
Qed.

(** The claim C3 as worded fails: with [--graphical], a VNC flag given in
    [--qemu_extra_args] is in the command line. *)
Lemma start_vm_graphical_vnc_from_extra_args :
  occurs "-vnc"
    (join " " (start_vm_cmd "vm.qcow2" 2222 4000 false None
                 (Some "-vnc 127.0.0.1:7") 4 false true))
  = true.
Proof. reflexivity. Qed.

Example start_vm_graphical_vnc_inside_extra_args :
  occurs "-vnc"
    (join " " (start_vm_cmd "vm.qcow2" 2222 4000 false None
                 (Some "-snapshot -vnc 127.0.0.1:7") 4 false true))
  = true.
Proof. reflexivity. Qed.

Example start_vm_graphical_no_vnc :
  occurs "-vnc"
    (join " " (start_vm_cmd "vm.qcow2" 2222 4000 true (Some "data.qcow2")
                 (Some "-snapshot") 4 true true))
  = false.
Proof. reflexivity. Qed.

Lemma int_truediv2_floor (c : Z) :
  0 < c < 2 ^ 53 -> int_truediv2 c = Some (c / 2).
Proof.
  intros [Hpos Hlt]. unfold int_truediv2.
  rewrite Z.abs_eq by lia. rewrite Z.sgn_pos by lia.
  assert (Hlog : Z.log2 c < 53) by (apply Z.log2_lt_pow2; lia).
  destruct (Z.leb_spec (Z.log2 c + 1) 53) as [_|Hbad]; [|lia].
  f_equal. lia.
Qed.

Lemma resolve_ncpus_given (n : Z) (s : State) :
  resolve_ncpus (Some n) s = (Ok n, s).
Proof. reflexivity. Qed.

Lemma resolve_ncpus_default (c : Z) (s : State) :
  ncpu (env s) = Some c -> 0 < c < 2 ^ 53 ->
  resolve_ncpus None s = (Ok (c / 2), s).
Proof.
  intros Hc Hrange. unfold resolve_ncpus, bind, os_cpu_count.
  rewrite Hc. unfold int_half. rewrite (int_truediv2_floor c Hrange).
  reflexivity.
Qed.

Lemma resolve_ncpus_unknown (s : State) :
  ncpu (env s) = None -> resolve_ncpus None s = (Raise TypeError, s).
Proof.
  intros Hc. unfold resolve_ncpus, bind, os_cpu_count. rewrite Hc.
  reflexivity.
Qed.

(** [start_vm] once [ncpus] is known: the optional echo, the call, one
    message. *)
Lemma start_vm_run
    (system : string -> Env -> Z * Env)
    (img_path : string) (ssh_port mem_size : Z) (daemonize : bool)
    (disk : option string) (verbose : bool) (qemu_extra_args : option string)
    (ncpus : option Z) (sudo graphical : bool) (s : State) (n : Z) :
  resolve_ncpus ncpus s = (Ok n, s) ->
  let cmd := join " " (start_vm_cmd img_path ssh_port mem_size daemonize disk
                         qemu_extra_args n sudo graphical) in
  let code := fst (system cmd (env s)) in
  let message :=
    if code =? 0 then
      "vm started wih ssh port " +:+ str_int ssh_port
        +:+ " on localhost connect with " +:+ nl +:+ "ssh -p "
        +:+ str_int ssh_port +:+ " {USER}@localhost"
    else "vm failed to start" in
  start_vm system img_path ssh_port mem_size daemonize disk verbose
    qemu_extra_args ncpus sudo graphical s
  = (Ok tt,
     mkState (snd (system cmd (env s)))
       (trace s ++ (if verbose then [Print cmd] else [])
          ++ [Call cmd; Print message])).
Proof.
  intros Hn cmd code message.
  unfold start_vm, bind. rewrite Hn. fold cmd.
  unfold subprocess_call, print, emit, ret.
  subst code message.
  destruct verbose; simpl;
    destruct (system cmd (env s)) as [code e']; simpl;
    destruct (code =? 0); simpl;
    rewrite <- ?app_assoc; reflexivity.
Qed.

Lemma smp_in_start_vm_cmd (img_path : string) (ssh_port mem_size : Z)
    (daemonize : bool) (disk qemu_extra_args : option string) (ncpus : Z)
    (sudo graphical : bool) :
  In ("-smp " +:+ str_int ncpus)
    (start_vm_cmd img_path ssh_port mem_size daemonize disk qemu_extra_args
       ncpus sudo graphical).
Proof.
  unfold start_vm_cmd, append, insert0.
  destruct sudo, graphical, daemonize, disk, qemu_extra_args; simpl; tauto.
Qed.

(** C4: with [ncpus] unset, on a host that reports [c] logical CPUs,
    [start_vm] uses the floor of [c / 2], 4 for 8 CPUs; a given [ncpus] is
    used as it is.  The count used is the one of the [-smp] flag of the
    command that [start_vm] runs. *)
Theorem start_vm_ncpus
    (system : string -> Env -> Z * Env)
    (img_path : string) (ssh_port mem_size : Z) (daemonize : bool)
    (disk : option string) (verbose : bool) (qemu_extra_args : option string)
    (ncpus : option Z) (sudo graphical : bool) (s : State) (c : Z) :
  (ncpus = None -> ncpu (env s) = Some c /\ 0 < c < 2 ^ 53) ->
  let n := match ncpus with Some given => given | None => c / 2 end in
  let cmd := start_vm_cmd img_path ssh_port mem_size daemonize disk
               qemu_extra_args n sudo graphical in
  resolve_ncpus ncpus s = (Ok n, s)
  /\ In ("-smp " +:+ str_int n) cmd
  /\ In (Call (join " " cmd))
       (trace (snd (start_vm system img_path ssh_port mem_size daemonize disk
                      verbose qemu_extra_args ncpus sudo graphical s))).
Proof.
  intros Hhost n cmd.
  assert (Hn : resolve_ncpus ncpus s = (Ok n, s)).
  { destruct ncpus as [given|]; [reflexivity|].
    destruct (Hhost eq_refl) as [Hc Hrange].
    by apply resolve_ncpus_default. }
  split; [exact Hn|]. split; [apply smp_in_start_vm_cmd|].
  rewrite (start_vm_run system img_path ssh_port mem_size daemonize disk
             verbose qemu_extra_args ncpus sudo graphical s n Hn).
  cbn [snd trace]. fold cmd.
  apply in_or_app. right. apply in_or_app. right. left. reflexivity.
Qed.

Lemma start_vm_ncpus_witness :
  let cmd := start_vm_cmd "vm.qcow2" 2222 4000 false None None 4 false false in
  resolve_ncpus None host_with_debian_iso = (Ok 4, host_with_debian_iso)
  /\ In "-smp 4" cmd
  /\ In (Call (join " " cmd))
       (trace (snd (start_vm quiet_tool "vm.qcow2" 2222 4000 false None false
                      None None false false host_with_debian_iso))).
Proof.
  apply (start_vm_ncpus quiet_tool "vm.qcow2" 2222 4000 false None false None
           None false false host_with_debian_iso 8).
  intros _. split; [reflexivity|lia].
Defined.





Example start_vm_success :
  start_vm quiet_tool "vm.qcow2" 2222 4000 false None false None None false
    false host_with_debian_iso
  = (Ok tt,
     mkState (env host_with_debian_iso)
       [Call "qemu-system-x86_64 -vnc 127.0.0.1:2223 -smp 4 -cpu host -device virtio-net,netdev=user.0 -m 4000 -drive file=vm.qcow2,if=virtio,index=0,cache=writeback,discard=ignore,format=qcow2 -machine type=pc,accel=kvm -netdev user,id=user.0,hostfwd=tcp::2222-:22";
        Print ("vm started wih ssh port 2222 on localhost connect with "
                 +:+ nl +:+ "ssh -p 2222 {USER}@localhost")]).
Proof. reflexivity. Qed.

Example start_vm_failure :
  start_vm failing_tool "vm.qcow2" 2222 4000 false None true None (Some 2)
    true true host_with_debian_iso
  = (Ok tt,
     mkState (env host_with_debian_iso)
       [Print "sudo qemu-system-x86_64 -smp 2 -cpu host -device virtio-net,netdev=user.0 -m 4000 -drive file=vm.qcow2,if=virtio,index=0,cache=writeback,discard=ignore,format=qcow2 -machine type=pc,accel=kvm -netdev user,id=user.0,hostfwd=tcp::2222-:22";
        Call "sudo qemu-system-x86_64 -smp 2 -cpu host -device virtio-net,netdev=user.0 -m 4000 -drive file=vm.qcow2,if=virtio,index=0,cache=writeback,discard=ignore,format=qcow2 -machine type=pc,accel=kvm -netdev user,id=user.0,hostfwd=tcp::2222-:22";
        Print "vm failed to start"]).
Proof. reflexivity. Qed.

(** ** The port probe *)

(** The socket is closed at the end of the first round, so the second
    [connect_ex] fails with [EBADF] whatever listens on 3133: the loop
    never makes a third round, and the answer is 3132 or 3133. *)
Lemma get_available_port_run (k : nat) (s : State) :
  get_available_port (2 + k) s
  = if bool_decide (3132 ∈ listeners (env s))
    then (Ok 3133,
          mkState (env s)
            (trace s ++ [Print "Port 3132 is already in use";
                         Print "Port 3133 is available"]))
    else (Ok 3132,
          mkState (env s) (trace s ++ [Print "Port 3132 is available"])).
Proof.
  unfold get_available_port. cbn [Nat.add probe_loop].
  unfold bind at 1. unfold connect_ex at 1. cbn [andb Z.leb Z.compare].
  destruct (bool_decide (3132 ∈ listeners (env s))).
  - change (3132 + 1) with 3133.
    unfold bind, connect_ex, sock_close, print, emit, ret. cbn.
    rewrite <- app_assoc. reflexivity.
  - cbn. reflexivity.
Qed.

(** The probe always returns: two rounds of the loop are enough. *)
Lemma get_available_port_returns (k : nat) (s : State) :
  exists (port : Z) (s' : State),
    get_available_port (2 + k) s = (Ok port, s')
    /\ (port = 3132 \/ port = 3133).
Proof.
  rewrite get_available_port_run.
  destruct (bool_decide (3132 ∈ listeners (env s))); eauto 6.
Qed.

(** When nothing listens on 3132 the answer is 3132, a free port. *)
Lemma get_available_port_first_free (k : nat) (s : State) :
  3132 ∉ listeners (env s) ->
  fst (get_available_port (2 + k) s) = Ok 3132.
Proof.
  intros Hfree. rewrite get_available_port_run.
  rewrite bool_decide_eq_false_2 by exact Hfree. reflexivity.
Qed.

Example get_available_port_free :
  get_available_port 2 (host_listening ∅)
  = (Ok 3132,
     mkState (env (host_listening ∅)) [Print "Port 3132 is available"]).
Proof. vm_compute. reflexivity. Qed.

Example get_available_port_3132_bound :
  get_available_port 2 (host_listening {[3132]})
  = (Ok 3133,
     mkState (env (host_listening {[3132]}))
       [Print "Port 3132 is already in use"; Print "Port 3133 is available"]).
Proof. vm_compute. reflexivity. Qed.

(** C1 fails on the code.  With listeners on 3132 and 3133 the probe
    answers 3133, a port with a listener.  And after a first answer of
    3133 (listener on 3132), binding a listener on 3133 and probing again
    gives 3133 again, not a greater port. *)
Theorem get_available_port_returns_bound_port (k : nat) :
  fst (get_available_port (2 + k) (host_listening {[3132; 3133]})) = Ok 3133
  /\ 3133 ∈ listeners (env (host_listening {[3132; 3133]}))
  /\ fst (get_available_port (2 + k) (host_listening {[3132]})) = Ok 3133
  /\ ~ (3133 < 3133).
Proof.
  rewrite !get_available_port_run.
  split; [vm_compute; reflexivity|].
  split; [vm_compute; set_solver|].
  split; [vm_compute; reflexivity|lia].
Qed.

(** * Further properties *)

(** ** The install image and [create_vm] *)

Lemma in_dict_lookup (d : string) (m : gmap string string) (v : string) :
  m !! d = Some v -> in_dict d m = true.
Proof.
  intros H. unfold in_dict. apply bool_decide_eq_true. by exists v.
Qed.

(** Every supported distribution has an entry in both tables. *)
Lemma catalog_entries (d : string) :
  d ∈ distbibutions ->
  exists (url path : string),
    iso_urls !! d = Some url /\ iso_paths !! d = Some path.
Proof.
  intros Hd. apply supported_cases in Hd.
  pose proof (proj2 (in_dict_iso_urls d) Hd) as Hu.
  pose proof (proj2 (in_dict_iso_paths d) Hd) as Hp.
  unfold in_dict in Hu, Hp. apply bool_decide_eq_true in Hu, Hp.
  destruct Hu as [url Hu], Hp as [path Hp]. eauto.
Qed.

Lemma download_iso_run
    (system : string -> Env -> Z * Env) (d url path : string) (s : State) :
  iso_urls !! d = Some url ->
  iso_paths !! d = Some path ->
  download_iso system d s
  = (Ok tt,
     mkState (snd (system ("wget " +:+ url +:+ " -O " +:+ path) (env s)))
       (trace s ++ [Call ("wget " +:+ url +:+ " -O " +:+ path)])).
Proof.
  intros Hu Hp. unfold download_iso.
  rewrite (in_dict_lookup _ _ _ Hp).
  unfold bind, getitem. rewrite Hu, Hp. unfold ret, subprocess_call.
  destruct (system ("wget " +:+ url +:+ " -O " +:+ path) (env s)).
  reflexivity.
Qed.

Lemma iso_exists_run (d path : string) (s : State) :
  iso_paths !! d = Some path ->
  iso_exists d s = (Ok (bool_decide (path ∈ files (env s))), s).
Proof.
  intros Hp. unfold iso_exists.
  rewrite (in_dict_lookup _ _ _ Hp).
  unfold bind, getitem. rewrite Hp. reflexivity.
Qed.

(** X1: for a supported distribution [download_iso] makes one call:
    [wget <url> -O <file>] with the URL and the file name that the two
    tables give for it; neither lookup fails, nothing is printed. *)
Theorem download_iso_runs_wget
    (system : string -> Env -> Z * Env) (d : string) (s : State) :
  d ∈ distbibutions ->
  exists (url path : string),
    iso_urls !! d = Some url
    /\ iso_paths !! d = Some path
    /\ download_iso system d s
       = (Ok tt,
          mkState (snd (system ("wget " +:+ url +:+ " -O " +:+ path) (env s)))
            (trace s ++ [Call ("wget " +:+ url +:+ " -O " +:+ path)])).
Proof.
  intros Hd. destruct (catalog_entries d Hd) as (url & path & Hu & Hp).
  exists url, path. split; [exact Hu|]. split; [exact Hp|].
  by apply download_iso_run.
Qed.

Lemma download_iso_runs_wget_witness :
  exists (url path : string),
    iso_urls !! "ubuntu" = Some url
    /\ iso_paths !! "ubuntu" = Some path
    /\ download_iso failing_tool "ubuntu" host_with_debian_iso
       = (Ok tt,
          mkState
            (snd (failing_tool ("wget " +:+ url +:+ " -O " +:+ path)
                    (env host_with_debian_iso)))
            (trace host_with_debian_iso
               ++ [Call ("wget " +:+ url +:+ " -O " +:+ path)])).
Proof.
  apply (download_iso_runs_wget failing_tool "ubuntu" host_with_debian_iso).
  apply list_elem_of_further, list_elem_of_here.
Defined.

Lemma create_vm_from_iso_ok
    (system : string -> Env -> Z * Env)
    (name : string) (size : Z) (iso_path : string) (s : State) :
  fst (create_vm_from_iso system name size iso_path s) = Ok tt.
Proof.
  unfold create_vm_from_iso, bind, subprocess_call, ret.
  repeat match goal with
         | |- context [system ?c ?e] => destruct (system c e); cbn
         end.
  reflexivity.
Qed.

Lemma create_vm_run
    (system : string -> Env -> Z * Env)
    (name : string) (size : Z) (d url path : string) (s : State) :
  iso_urls !! d = Some url ->
  iso_paths !! d = Some path ->
  create_vm system name size d s
  = if bool_decide (path ∈ files (env s))
    then create_vm_from_iso system name size path s
    else create_vm_from_iso system name size path
           (mkState (snd (system ("wget " +:+ url +:+ " -O " +:+ path) (env s)))
              (trace s ++ [Call ("wget " +:+ url +:+ " -O " +:+ path)])).
Proof.
  intros Hu Hp.
  assert (Hd : in_list d distbibutions = true).
  { apply in_list_distbibutions, in_dict_iso_paths.
    by apply (in_dict_lookup _ _ path). }
  unfold create_vm. rewrite Hd.
  unfold bind at 1. rewrite (iso_exists_run d path s Hp).
  destruct (bool_decide (path ∈ files (env s))); cbn [negb].
  - unfold bind, ret, getitem. rewrite Hp. reflexivity.
  - unfold bind at 1. unfold bind at 1.
    rewrite (download_iso_run system d url path s Hu Hp).
    unfold getitem. rewrite Hp. reflexivity.
Qed.

(** X2: when the image of a supported distribution is on disk, [create_vm]
    downloads nothing: it does what [create_vm_from_iso] does with the
    catalog file name. *)
Theorem create_vm_iso_present
    (system : string -> Env -> Z * Env)
    (name : string) (size : Z) (d path : string) (s : State) :
  iso_paths !! d = Some path ->
  path ∈ files (env s) ->
  create_vm system name size d s
  = create_vm_from_iso system name size path s.
Proof.
  intros Hp Hfile.
  assert (Hd : d ∈ distbibutions).
  { apply supported_cases, in_dict_iso_paths. by apply (in_dict_lookup _ _ path). }
  destruct (catalog_entries d Hd) as (url & path' & Hu & Hp').
  rewrite (create_vm_run system name size d url path s Hu Hp).
  by rewrite bool_decide_eq_true_2.
Qed.

Lemma create_vm_iso_present_witness :
  create_vm quiet_tool "test" 10 "debian" host_with_debian_iso
  = create_vm_from_iso quiet_tool "test" 10
      "debian-10.13.0-amd64-xfce-CD-1.iso" host_with_debian_iso.
Proof.
  apply (create_vm_iso_present quiet_tool "test" 10 "debian"
           "debian-10.13.0-amd64-xfce-CD-1.iso" host_with_debian_iso).
  - reflexivity.
  - unfold host_with_debian_iso. cbn [env files].
    apply elem_of_singleton_2. reflexivity.
Defined.

(** X3: when the image is not on disk, [create_vm] first runs the download
    and then creates the machine on the host as the downloader left it:
    the exit code of [wget] is not looked at, and the image is not looked
    for a second time. *)
Theorem create_vm_iso_absent
    (system : string -> Env -> Z * Env)
    (name : string) (size : Z) (d url path : string) (s : State) :
  iso_urls !! d = Some url ->
  iso_paths !! d = Some path ->
  path ∉ files (env s) ->
  let wget := "wget " +:+ url +:+ " -O " +:+ path in
  create_vm system name size d s
  = create_vm_from_iso system name size path
      (mkState (snd (system wget (env s))) (trace s ++ [Call wget])).
Proof.
  intros Hu Hp Hfile wget.
  rewrite (create_vm_run system name size d url path s Hu Hp).
  by rewrite bool_decide_eq_false_2.
Qed.

Lemma create_vm_iso_absent_witness :
  let wget := "wget https://releases.ubuntu.com/focal/ubuntu-20.04.6-desktop-amd64.iso -O ubuntu-20.04.3-live-server-amd64.iso" in
  create_vm failing_tool "test" 10 "ubuntu" host_with_debian_iso
  = create_vm_from_iso failing_tool "test" 10
      "ubuntu-20.04.3-live-server-amd64.iso"
      (mkState (snd (failing_tool wget (env host_with_debian_iso)))
         (trace host_with_debian_iso ++ [Call wget])).
Proof.
  apply (create_vm_iso_absent failing_tool "test" 10 "ubuntu"
           "https://releases.ubuntu.com/focal/ubuntu-20.04.6-desktop-amd64.iso"
           "ubuntu-20.04.3-live-server-amd64.iso" host_with_debian_iso).
  - reflexivity.
  - reflexivity.
  - unfold host_with_debian_iso. cbn [env files].
    intros H. apply elem_of_singleton_1 in H. discriminate H.
Defined.

(** X4: [iso_exists] accepts any string: it never raises and changes
    nothing, and its answer is [True] exactly when the string is a key of
    [iso_paths] whose file is on disk. *)
Theorem iso_exists_total (d : string) (s : State) :
  exists b : bool,
    iso_exists d s = (Ok b, s)
    /\ (b = true <->
        exists path : string,
          iso_paths !! d = Some path /\ path ∈ files (env s)).
Proof.
  destruct (iso_paths !! d) as [path|] eqn:Hp.
  - exists (bool_decide (path ∈ files (env s))).
    split; [by apply iso_exists_run|].
    rewrite bool_decide_eq_true. split.
    + intros Hin. by exists path.
    + intros (path' & [= <-] & Hin). exact Hin.
  - exists false. split.
    + unfold iso_exists, in_dict. rewrite Hp.
      rewrite bool_decide_eq_false_2; [reflexivity|].
      intros [? ?]; discriminate.
    + split; [discriminate|]. intros (path' & Hp' & _). discriminate Hp'.
Qed.

(** X5: [create_vm] and [download_iso] never raise [KeyError], whatever
    the distribution string and whatever the tools answer: the lookups in
    the tables are only reached for keys the tables have. *)
Theorem create_vm_no_key_error
    (system : string -> Env -> Z * Env)
    (name : string) (size : Z) (d key : string) (s : State) :
  fst (create_vm system name size d s) <> Raise (KeyError key)
  /\ fst (download_iso system d s) <> Raise (KeyError key).
Proof.
  destruct (decide (d ∈ distbibutions)) as [Hd|Hd].
  - destruct (catalog_entries d Hd) as (url & path & Hu & Hp). split.
    + rewrite (create_vm_run system name size d url path s Hu Hp).
      destruct (bool_decide (path ∈ files (env s)));
        by rewrite create_vm_from_iso_ok.
    + by rewrite (download_iso_run system d url path s Hu Hp).
  - rewrite supported_cases in Hd. split.
    + unfold create_vm.
      by rewrite (not_true_false _ _ (in_list_distbibutions d) Hd).
    + unfold download_iso.
      by rewrite (not_true_false _ _ (in_dict_iso_paths d) Hd).
Qed.

(** X6: download, then look: when the downloader leaves its output file on
    disk, [iso_exists] answers [True] right after [download_iso], for
    every supported distribution.  [download_iso] writes to the file name
    that [iso_exists] tests. *)
Theorem download_then_iso_exists
    (system : string -> Env -> Z * Env) (d : string) (s : State) :
  d ∈ distbibutions ->
  (forall (url path : string) (e : Env),
     iso_urls !! d = Some url ->
     iso_paths !! d = Some path ->
     path ∈ files (snd (system ("wget " +:+ url +:+ " -O " +:+ path) e))) ->
  fst ((download_iso system d ;; iso_exists d) s) = Ok true.
Proof.
  intros Hd Htool.
  destruct (catalog_entries d Hd) as (url & path & Hu & Hp).
  unfold bind. rewrite (download_iso_run system d url path s Hu Hp).
  rewrite (iso_exists_run d path _ Hp). cbn [fst env].
  rewrite bool_decide_eq_true_2; [reflexivity|].
  by apply Htool.
Qed.

Lemma download_then_iso_exists_witness :
  fst ((download_iso (tool_creating "debian-10.13.0-amd64-xfce-CD-1.iso")
          "debian" ;;
        iso_exists "debian") host_without_cpu_count) = Ok true.
Proof.
  apply (download_then_iso_exists
           (tool_creating "debian-10.13.0-amd64-xfce-CD-1.iso") "debian"
           host_without_cpu_count).
  - apply list_elem_of_here.
  - intros url path e _ Hp.
    assert (Hdeb : iso_paths !! "debian"
                   = Some "debian-10.13.0-amd64-xfce-CD-1.iso") by reflexivity.
    rewrite Hdeb in Hp. injection Hp as <-.
    unfold tool_creating. cbn [snd files].
    apply elem_of_union_l, elem_of_singleton_2. reflexivity.
Defined.

(** ** Image file names *)

(** X8: the image file name determines the name and the size it was made
    from: two calls of [create_vm_from_iso] write to the same image only
    when both the name and the size are the same. *)
Theorem img_path_of_inj (name1 name2 : string) (size1 size2 : Z) :
  img_path_of name1 size1 = img_path_of name2 size2 ->
  name1 = name2 /\ size1 = size2.
Proof.
  unfold img_path_of. intros Heq.
  change (".size" +:+ str_int size1 +:+ "G.qcow2")
    with (".siz" +:+ String "e" (str_int size1 +:+ "G.qcow2")) in Heq.
  change (".size" +:+ str_int size2 +:+ "G.qcow2")
    with (".siz" +:+ String "e" (str_int size2 +:+ "G.qcow2")) in Heq.
  rewrite <- !append_assoc in Heq.
  apply cut_at_last in Heq as [Hname Hsize].
  - apply append_inv_tail in Hname. apply append_inv_tail in Hsize.
    split; [exact Hname|by apply str_int_inj].
  - rewrite has_char_append, has_char_str_int; reflexivity.
  - rewrite has_char_append, has_char_str_int; reflexivity.
Qed.

Lemma img_path_of_inj_witness : "test" = "test" /\ 10 = 10.
Proof.
  apply (img_path_of_inj "test" "test" 10 10). reflexivity.
Defined.

Example img_path_same_size_other_name :
  img_path_of "a" 10 <> img_path_of "b" 10.
Proof. discriminate. Qed.

(** ** The port probe, in general *)

(** X9: [get_available_port] always returns, after at most two rounds of its
    loop, and leaves the host as it is.  Its answer depends on port 3132
    alone: 3132 when nothing listens there, 3133 otherwise; the last line
    it prints announces the answer as available. *)
Theorem get_available_port_answer (k : nat) (s : State) :
  exists (port : Z) (s' : State),
    get_available_port (2 + k) s = (Ok port, s')
    /\ env s' = env s
    /\ (port = 3132 <-> 3132 ∉ listeners (env s))
    /\ (port = 3133 <-> 3132 ∈ listeners (env s))
    /\ last (trace s')
       = Some (Print ("Port " +:+ str_int port +:+ " is available")).
Proof.
  rewrite get_available_port_run.
  destruct (bool_decide (3132 ∈ listeners (env s))) eqn:Hbound.
  - apply bool_decide_eq_true in Hbound.
    eexists 3133, _. split; [reflexivity|]. cbn [env trace].
    split; [reflexivity|]. split; [split; [discriminate|tauto]|].
    split; [tauto|].
    match goal with
    | |- last (?l ++ [?a; ?b]) = _ =>
        change (l ++ [a; b])%list with (l ++ ([a] ++ [b]))%list
    end.
    rewrite app_assoc. apply last_snoc.
  - apply bool_decide_eq_false in Hbound.
    eexists 3132, _. split; [reflexivity|]. cbn [env trace].
    split; [reflexivity|]. split; [tauto|].
    split; [split; [discriminate|tauto]|].
    apply last_snoc.
Qed.

(** X10: the answer is a free port whenever nothing listens on 3133. *)
Theorem get_available_port_free_when_3133_free (k : nat) (s : State) :
  3133 ∉ listeners (env s) ->
  exists (port : Z) (s' : State),
    get_available_port (2 + k) s = (Ok port, s')
    /\ port ∉ listeners (env s).
Proof.
  intros Hfree. rewrite get_available_port_run.
  destruct (bool_decide (3132 ∈ listeners (env s))) eqn:Hbound.
  - eexists 3133, _. split; [reflexivity|exact Hfree].
  - apply bool_decide_eq_false in Hbound.
    eexists 3132, _. split; [reflexivity|exact Hbound].
Qed.

Lemma get_available_port_free_when_3133_free_witness :
  exists (port : Z) (s' : State),
    get_available_port 2 (host_listening {[3132]}) = (Ok port, s')
    /\ port ∉ listeners (env (host_listening {[3132]})).
Proof.
  apply (get_available_port_free_when_3133_free 0 (host_listening {[3132]})).
  unfold host_listening. cbn [env listeners].
  intros H. apply elem_of_singleton_1 in H. discriminate H.
Defined.

(** ** The launcher, in general *)

(** X11: with [ncpus] unset on a host whose CPU count is unknown, [start_vm]
    raises [TypeError] before it prints or runs anything. *)
Theorem start_vm_unknown_cpu_count
    (system : string -> Env -> Z * Env)
    (img_path : string) (ssh_port mem_size : Z) (daemonize : bool)
    (disk : option string) (verbose : bool) (qemu_extra_args : option string)
    (sudo graphical : bool) (s : State) :
  ncpu (env s) = None ->
  start_vm system img_path ssh_port mem_size daemonize disk verbose
    qemu_extra_args None sudo graphical s
  = (Raise TypeError, s).
Proof.
  intros Hc. unfold start_vm, bind.
  rewrite (resolve_ncpus_unknown s Hc). reflexivity.
Qed.

Lemma start_vm_unknown_cpu_count_witness :
  start_vm quiet_tool "vm.qcow2" 2222 4000 false None true None None false
    false host_without_cpu_count
  = (Raise TypeError, host_without_cpu_count).
Proof.
  apply (start_vm_unknown_cpu_count quiet_tool "vm.qcow2" 2222 4000 false
           None true None false false host_without_cpu_count).
  reflexivity.
Defined.

Lemma resolve_ncpus_outcome (ncpus : option Z) (s : State) :
  (exists n : Z, resolve_ncpus ncpus s = (Ok n, s))
  \/ (exists e : exn, ncpus = None /\ resolve_ncpus ncpus s = (Raise e, s)).
Proof.
  destruct ncpus as [n|]; [left; by exists n|].
  unfold resolve_ncpus, bind, os_cpu_count, int_half.
  destruct (ncpu (env s)) as [c|]; [|right; by exists TypeError].
  destruct (int_truediv2 c) as [h|];
    [left; by exists h|right; by exists OverflowError].
Qed.

(** X12: whatever happens, return or exception, [start_vm] only adds to
    what has been printed and run, starts at most one subprocess and
    prints at most twice; when it returns it has run exactly one
    subprocess. *)
Theorem start_vm_checked_runs_at_most_once
    (system : string -> Env -> Z * Env) (encodable : string -> bool)
    (img_path : string) (ssh_port mem_size : Z) (daemonize : bool)
    (disk : option string) (verbose : bool) (qemu_extra_args : option string)
    (ncpus : option Z) (sudo graphical : bool) (s : State) :
  let run := start_vm_checked system encodable img_path ssh_port mem_size
               daemonize disk verbose qemu_extra_args ncpus sudo graphical s in
  exists tail : list event,
    trace (snd run) = (trace s ++ tail)%list
    /\ (length (List.filter is_call tail) <= 1)%nat
    /\ (length (List.filter (fun ev => negb (is_call ev)) tail) <= 2)%nat
    /\ (if is_ok (fst run)
        then length (List.filter is_call tail) = 1%nat
        else True).
Proof.
  intros run. subst run. unfold start_vm_checked, bind.
  destruct (resolve_ncpus_outcome ncpus s) as [[n Hn]|(e & _ & He)].
  - rewrite Hn.
    unfold print_checked, subprocess_call_checked, subprocess_call, print,
      emit, raise, ret.
    destruct verbose;
      repeat match goal with
             | |- context [encodable ?l] => destruct (encodable l)
             | |- context [has_char NUL ?c] => destruct (has_char NUL c)
             | |- context [system ?c ?e] => destruct (system c e)
             | |- context [?code =? 0] => destruct (code =? 0)
             end;
      cbn [fst snd trace env is_ok];
      rewrite <- ?app_assoc;
      first [ exists []; rewrite app_nil_r; cbn; repeat split; lia
            | eexists; split; [reflexivity|]; cbn; repeat split; lia ].
  - rewrite He. exists []. rewrite app_nil_r. cbn. repeat split; lia.
Qed.

Lemma join_cons (sep x y : string) (l : list string) :
  join sep (x :: y :: l) = x +:+ sep +:+ join sep (y :: l).
Proof. reflexivity. Qed.

Lemma join_snoc (sep x : string) (l : list string) :
  l <> [] -> join sep (l ++ [x]) = join sep l +:+ sep +:+ x.
Proof.
  induction l as [|y l IH]; [congruence|]. intros _.
  destruct l as [|z l]; [reflexivity|].
  change ((y :: z :: l) ++ [x])%list with (y :: ((z :: l) ++ [x]))%list.
  change ((z :: l) ++ [x])%list with (z :: (l ++ [x]))%list at 1.
  rewrite join_cons.
  change (z :: (l ++ [x]))%list with ((z :: l) ++ [x])%list.
  rewrite IH by discriminate.
  rewrite join_cons. by rewrite !append_assoc.
Qed.

Lemma start_vm_cmd_nonempty (img_path : string) (ssh_port mem_size : Z)
    (daemonize : bool) (disk qemu_extra_args : option string) (ncpus : Z)
    (sudo graphical : bool) :
  exists (x : string) (l : list string),
    start_vm_cmd img_path ssh_port mem_size daemonize disk qemu_extra_args
      ncpus sudo graphical = x :: l.
Proof.
  unfold start_vm_cmd, append, insert0.
  destruct sudo, graphical, daemonize, disk, qemu_extra_args; cbn; eauto.
Qed.

(** X13: the command line that [start_vm] hands to the shell: [--sudo] puts
    ["sudo "] in front and [--qemu_extra_args] puts a space and its text,
    unchanged, at the end; neither touches the rest of the line. *)
Theorem start_vm_command_line (img_path : string) (ssh_port mem_size : Z)
    (daemonize : bool) (disk qemu_extra_args : option string) (ncpus : Z)
    (sudo graphical : bool) :
  join " " (start_vm_cmd img_path ssh_port mem_size daemonize disk
              qemu_extra_args ncpus sudo graphical)
  = (if sudo then "sudo " else "")
    +:+ join " " (start_vm_cmd img_path ssh_port mem_size daemonize disk
                    None ncpus false graphical)
    +:+ match qemu_extra_args with
        | Some extra => " " +:+ extra
        | None => ""
        end.
Proof.
  set (core := start_vm_cmd img_path ssh_port mem_size daemonize disk None
                 ncpus false graphical).
  assert (Hne : core <> []).
  { destruct (start_vm_cmd_nonempty img_path ssh_port mem_size daemonize
                disk None ncpus false graphical) as (x & l & Hcore).
    subst core. rewrite Hcore. discriminate. }
  assert (Hcmd :
    start_vm_cmd img_path ssh_port mem_size daemonize disk qemu_extra_args
      ncpus sudo graphical
    = ((if sudo then ["sudo"] else [])
       ++ match qemu_extra_args with
          | Some extra => core ++ [extra]
          | None => core
          end)%list).
  { destruct sudo, qemu_extra_args; reflexivity. }
  rewrite Hcmd. clear Hcmd.
  assert (Htail :
    join " " match qemu_extra_args with
             | Some extra => (core ++ [extra])%list
             | None => core
             end
    = join " " core +:+ match qemu_extra_args with
                        | Some extra => " " +:+ extra
                        | None => ""
                        end).
  { destruct qemu_extra_args as [extra|].
    - by apply join_snoc.
    - by rewrite append_nil_r. }
  destruct sudo.
  - destruct (match qemu_extra_args with
              | Some extra => (core ++ [extra])%list
              | None => core
              end) as [|y l] eqn:Hl.
    + destruct qemu_extra_args; [|congruence].
      by destruct core.
    + change (["sudo"] ++ y :: l)%list with ("sudo" :: y :: l).
      rewrite join_cons, Htail. reflexivity.
  - change ([] ++ ?l)%list with l. exact Htail.
Qed.

Example start_vm_command_line_sudo_extra :
  join " " (start_vm_cmd "vm.qcow2" 2222 4000 false None (Some "-snapshot")
              2 true true)
  = "sudo qemu-system-x86_64 -smp 2 -cpu host -device virtio-net,netdev=user.0 -m 4000 -drive file=vm.qcow2,if=virtio,index=0,cache=writeback,discard=ignore,format=qcow2 -machine type=pc,accel=kvm -netdev user,id=user.0,hostfwd=tcp::2222-:22 -snapshot".
Proof. reflexivity. Qed.

(** ** The image is downloaded once *)

Lemma create_vm_from_iso_keeps_files
    (system : string -> Env -> Z * Env)
    (name : string) (size : Z) (iso_path path : string) (s : State) :
  (forall (cmd : string) (e : Env),
     files e ⊆ files (snd (system cmd e))) ->
  path ∈ files (env s) ->
  path ∈ files (env (snd (create_vm_from_iso system name size iso_path s))).
Proof.
  intros Hkeep Hin.
  unfold create_vm_from_iso, bind, subprocess_call, ret.
  match goal with
  | |- context [system ?c (env s)] =>
      pose proof (Hkeep c (env s)) as H1;
      destruct (system c (env s)) as [c1 e1]
  end.
  cbn [snd] in H1. cbn [env].
  match goal with
  | |- context [system ?c e1] =>
      pose proof (Hkeep c e1) as H2;
      destruct (system c e1) as [c2 e2]
  end.
  cbn [snd env] in *. apply H2, H1, Hin.
Qed.

(** X7: when the tools never remove a file and the downloader leaves its
    output file on disk, the image is on disk after any [create_vm] of a
    supported distribution, so a second [create_vm] of that distribution
    does not download again: it goes straight to [create_vm_from_iso]. *)
Theorem create_vm_downloads_once
    (system : string -> Env -> Z * Env)
    (name1 name2 : string) (size1 size2 : Z) (d : string) (s : State) :
  d ∈ distbibutions ->
  (forall (cmd : string) (e : Env),
     files e ⊆ files (snd (system cmd e))) ->
  (forall (url path : string) (e : Env),
     iso_urls !! d = Some url ->
     iso_paths !! d = Some path ->
     path ∈ files (snd (system ("wget " +:+ url +:+ " -O " +:+ path) e))) ->
  exists path : string,
    iso_paths !! d = Some path
    /\ let s1 := snd (create_vm system name1 size1 d s) in
       path ∈ files (env s1)
       /\ create_vm system name2 size2 d s1
          = create_vm_from_iso system name2 size2 path s1.
Proof.
  intros Hd Hkeep Hwget.
  destruct (catalog_entries d Hd) as (url & path & Hu & Hp).
  exists path. split; [exact Hp|]. intros s1.
  assert (Hin : path ∈ files (env s1)).
  { subst s1. rewrite (create_vm_run system name1 size1 d url path s Hu Hp).
    destruct (bool_decide (path ∈ files (env s))) eqn:Hpresent.
    - apply bool_decide_eq_true in Hpresent.
      by apply create_vm_from_iso_keeps_files.
    - apply create_vm_from_iso_keeps_files; [exact Hkeep|].
      cbn [env]. by apply Hwget. }
  split; [exact Hin|].
  rewrite (create_vm_run system name2 size2 d url path s1 Hu Hp).
  by rewrite bool_decide_eq_true_2.
Qed.

Lemma create_vm_downloads_once_witness :
  exists path : string,
    iso_paths !! "debian" = Some path
    /\ let s1 := snd (create_vm
                        (tool_creating "debian-10.13.0-amd64-xfce-CD-1.iso")
                        "first" 10 "debian" host_without_cpu_count) in
       path ∈ files (env s1)
       /\ create_vm (tool_creating "debian-10.13.0-amd64-xfce-CD-1.iso")
            "second" 20 "debian" s1
          = create_vm_from_iso
              (tool_creating "debian-10.13.0-amd64-xfce-CD-1.iso")
              "second" 20 path s1.
Proof.
  apply (create_vm_downloads_once
           (tool_creating "debian-10.13.0-amd64-xfce-CD-1.iso")
           "first" "second" 10 20 "debian" host_without_cpu_count).
  - apply list_elem_of_here.
  - intros cmd e. unfold tool_creating. cbn [snd files].
    apply union_subseteq_r.
  - intros url path e _ Hp.
    assert (Hdeb : iso_paths !! "debian"
                   = Some "debian-10.13.0-amd64-xfce-CD-1.iso") by reflexivity.
    rewrite Hdeb in Hp. injection Hp as <-.
    unfold tool_creating. cbn [snd files].
    apply elem_of_union_l, elem_of_singleton_2. reflexivity.
Defined.
